(** * A buddy allocator over a fixed arena: [buddy.c]

    Shallow embedding of [buddy.c] (macros [PAGE_TO_ADDR], [ADDR_TO_PAGE],
    [BUDDY_ADDR]; functions [buddy_init], [buddy_alloc], [buddy_free],
    [buddy_dump]) and the properties of its specification checked on it.

    Conventions.
    - C [int] and [unsigned long] values are [Z]; the wrap-around of
      [unsigned long] (64 bits) and of [uint8_t] is written out.
    - Addresses are absolute: the address of [g_memory[0]] is the section
      variable [g_memory], chosen by the linker, not by the program.
    - An access that C leaves undefined (an index outside an array, a
      member of [page_t] read or written through a pointer to something
      that is no [page_t], a link that leads nowhere) is the outcome
      [Undef]. *)

From Stdlib Require Import ZArith Lia.
From stdpp Require Import base list strings pretty.

Local Open Scope Z_scope.

(** ** Machine integers *)

Module CInt.

(** [unsigned long] on the LP64 targets the lab is built for. *)
Definition ULONG_BITS : Z := 64.

Definition ulong (z : Z) : Z := z mod 2 ^ ULONG_BITS.

(** Conversion to [uint8_t], as in [g_pages[i].order = -1]. *)
Definition uint8 (z : Z) : Z := z mod 2 ^ 8.

(** [1 << o] on [int]; defined by C for [0 <= o <= 30]. *)
Definition shl1 (o : Z) : Z := Z.shiftl 1 o.

End CInt.

Import CInt.

(** ** Configuration (lines 25-28) *)

Definition MIN_ORDER : Z := 12.
Definition MAX_ORDER : Z := 20.
Definition PAGE_SIZE : Z := shl1 MIN_ORDER.

(** [n_pages = (1<<MAX_ORDER) / PAGE_SIZE], the length of [g_pages]. *)
Definition n_pages : Z := shl1 MAX_ORDER / PAGE_SIZE.

(** The orders [MIN_ORDER .. MAX_ORDER], as the loops
    [for (i = MIN_ORDER; i <= MAX_ORDER; i++)] visit them. *)
Definition orders : list Z := seqZ MIN_ORDER (MAX_ORDER - MIN_ORDER + 1).

(** ** Outcomes

    A C call either completes, here with a value, or runs into an access
    the language leaves undefined. *)

Inductive outcome (A : Type) : Type :=
| Ret (a : A)
| Undef.
Arguments Ret {A} a.
Arguments Undef {A}.

#[global] Instance outcome_ret : MRet outcome := fun A a => Ret a.
#[global] Instance outcome_bind : MBind outcome := fun A B f m =>
  match m with
  | Ret a => f a
  | Undef => Undef
  end.

(** ** Data (lines 52-71) *)

(** [page_t] without its [list] member: which list a page is linked on is
    kept in [free_area]. [order] is a [uint8_t]. *)
Record page_t : Type := mk_page {
  location : Z;
  index : Z;
  order : Z
}.

(** A value of type pointer to [page_t]: [NULL], the address of
    [g_pages[idx]], the address of the list head [free_area[i]] taken as a
    pointer to [page_t], or anything else. *)
Inductive page_ptr : Type :=
| Null
| PagePtr (idx : nat)
| Wild
| HeadPtr (i : Z).

(** [a[i]] with a C [int] index: undefined outside the array. *)
Definition at_index {A} (l : list A) (i : Z) : outcome A :=
  if 0 <=? i then
    match l !! Z.to_nat i with
    | Some a => Ret a
    | None => Undef
    end
  else Undef.

Definition set_index {A} (l : list A) (i : Z) (a : A) : list A :=
  if 0 <=? i then <[Z.to_nat i := a]> l else l.

(** Modelled from the spec: [list.h] ([struct list_head], [INIT_LIST_HEAD],
    [list_add], [list_del], [list_empty], [list_entry], [list_for_each]) is
    not among the sources. The specification (sections 3 and 9) has the
    free lists as intrusive doubly-linked lists, one head per order, linked
    through the [list] member of the page entries; the operations have the
    meaning of the list library the file names at its line 4. A list head
    whose links form a list is [Some l], with [l] the page entries linked
    on it, front first. A head whose links form no list is [None]: one never
    given to [INIT_LIST_HEAD] (static storage, both links null) or one that
    [list_del] has unlinked; it is not an empty list, and following its
    links is undefined.

    [list_entry(ptr, page_t, list)] is [ptr] minus the offset of [list] in
    [page_t]. [list] is the first member (line 53), so the offset is 0, and
    at lines 142 and 153, where [ptr] is [&free_area[i]], the result is the
    address of that list head itself, typed as a page entry. *)
Module ListH.

Definition list_head : Type := option (list nat).

Definition INIT_LIST_HEAD : list_head := Some [].

Definition list_empty (h : list_head) : bool :=
  match h with
  | Some [] => true
  | _ => false
  end.

Definition list_add (new : nat) (h : list_head) : outcome list_head :=
  match h with
  | Some l => Ret (Some (new :: l))
  | None => Undef
  end.

(** [list_entry(&free_area[i], page_t, list)]. *)
Definition list_entry (i : Z) : page_ptr := HeadPtr i.

(** [list_del(&free_area[i])]: the head is taken out of its own list. The
    entries stay linked to each other, on no head; the head's links are
    dead. *)
Definition list_del (fa : list list_head) (i : Z) : outcome (list list_head) :=
  match at_index fa i with
  | Ret (Some _) => Ret (set_index fa i None)
  | _ => Undef
  end.

(** The number of times the body of [list_for_each] runs. *)
Definition list_for_each_count (h : list_head) : outcome Z :=
  match h with
  | Some l => Ret (Z.of_nat (length l))
  | None => Undef
  end.

End ListH.

Import ListH.

(** The globals [free_area] (line 64, [MAX_ORDER+1] list heads) and
    [g_pages] (line 71). *)
Record state : Type := mk_state {
  free_area : list list_head;
  g_pages : list page_t
}.

(** [g_pages[idx].order = o], with the conversion to [uint8_t]. *)
Definition set_order (pages : list page_t) (idx : nat) (o : Z) : list page_t :=
  alter (fun pg => mk_page (location pg) (index pg) (uint8 o)) idx pages.

(** [ptr->order = o] (lines 145, 148, 155). A list head has no member
    [order]: the store through [HeadPtr] lands outside the head. *)
Definition store_order (pages : list page_t) (ptr : page_ptr) (o : Z)
    : outcome (list page_t) :=
  match ptr with
  | PagePtr p =>
      match pages !! p with
      | Some _ => Ret (set_order pages p o)
      | None => Undef
      end
  | _ => Undef
  end.

(** The static storage before [buddy_init] runs: all zero. *)
Definition boot : state :=
  mk_state (replicate (Z.to_nat (MAX_ORDER + 1)) None)
           (replicate (Z.to_nat n_pages) (mk_page 0 0 0)).

Section Arena.

(** Address of the first byte of [g_memory]. *)
Variable g_memory : Z.

(** The arena [g_memory[1<<MAX_ORDER]] lies inside the address space. *)
Definition arena_placed : Prop :=
  0 <= g_memory /\ g_memory + 2 ^ MAX_ORDER <= 2 ^ ULONG_BITS.

(** ** Address macros (lines 30-37) *)

(** Line 30: [(page_idx*PAGE_SIZE) + g_memory], as a pointer. *)
Definition PAGE_TO_ADDR (page_idx : Z) : Z := page_idx * PAGE_SIZE + g_memory.

(** Line 33: the byte distance [addr - g_memory], converted to
    [unsigned long], divided by [PAGE_SIZE]. *)
Definition ADDR_TO_PAGE (addr : Z) : Z := ulong (addr - g_memory) / PAGE_SIZE.

(** Lines 36-37:
    [(((unsigned long)addr - (unsigned long)g_memory) ^ (1<<o))
      + (unsigned long)g_memory], as a pointer. *)
Definition BUDDY_ADDR (addr o : Z) : Z :=
  ulong (Z.lxor (ulong (ulong addr - ulong g_memory)) (shl1 o) + ulong g_memory).

(** ** [buddy_init] (lines 84-102) *)

(** Lines 90-92: [index = i], [location = PAGE_TO_ADDR(i)], [order = -1]. *)
Definition init_page (i : Z) : page_t :=
  mk_page (PAGE_TO_ADDR i) i (uint8 (-1)).

Definition buddy_init (st : state) : outcome state :=
  let pages := init_page <$> seqZ 0 n_pages in
  let fa := foldl (fun fa i => set_index fa i INIT_LIST_HEAD) (free_area st) orders in
  h ← at_index fa MAX_ORDER;
  h' ← list_add 0%nat h;
  mret (mk_state (set_index fa MAX_ORDER h') pages).

(** ** [buddy_alloc] (lines 118-160) *)

(** Lines 126-136, with [todo] the values of [i] still to visit. The second
    test is evaluated only when the first conjunct holds. *)
Fixpoint find_orders (fa : list list_head) (size : Z) (todo : list Z)
    (desired_order upper_order : Z) : outcome (Z * Z) :=
  match todo with
  | [] => mret (desired_order, upper_order)
  | i :: todo' =>
      let desired_order :=
        if (desired_order <? MIN_ORDER) && (size <=? shl1 i) then i
        else desired_order in
      if MIN_ORDER <=? desired_order then
        h ← at_index fa i;
        if negb (list_empty h) then mret (desired_order, i)
        else find_orders fa size todo' desired_order upper_order
      else find_orders fa size todo' desired_order upper_order
  end.

(** Line 159 and line 147: [allocation->location]. *)
Definition location_of (st : state) (allocation : page_ptr) : outcome Z :=
  match allocation with
  | PagePtr p => pg ← at_index (g_pages st) (Z.of_nat p); mret (location pg)
  | _ => Undef
  end.

(** Lines 142-145 at [i]: [temp] is named, unlinked, becomes [allocation]
    and has [i] stored as its order. *)
Definition split_take (i : Z) (st : state) : outcome (state * page_ptr) :=
  let temp := list_entry i in
  fa1 ← list_del (free_area st) i;
  let allocation := temp in
  pages1 ← store_order (g_pages st) allocation i;
  mret (mk_state fa1 pages1, allocation).

(** Lines 147-149 at [i]: the buddy entry is computed from
    [allocation->location], has [i] stored as its order and is pushed on
    the list of order [i - 1]. *)
Definition split_push (i : Z) (st : state) (allocation : page_ptr) : outcome state :=
  loc ← location_of st allocation;
  let b := ADDR_TO_PAGE (BUDDY_ADDR loc (i - 1)) in
  _ ← at_index (g_pages st) b;
  let buddy := Z.to_nat b in
  pages2 ← store_order (g_pages st) (PagePtr buddy) i;
  h ← at_index (free_area st) (i - 1);
  h' ← list_add buddy h;
  mret (mk_state (set_index (free_area st) (i - 1) h') pages2).

(** Lines 142-149, one pass of the body at [i]; the result carries the new
    value of [allocation]. *)
Definition split_step (i : Z) (st : state) : outcome (state * page_ptr) :=
  '(st1, allocation) ← split_take i st;
  st2 ← split_push i st1 allocation;
  mret (st2, allocation).

(** Line 141: [for (i = upper_order; i > desired_order; i--)]. With [n]
    passes left, [i] is [desired_order + n]. *)
Fixpoint split_loop (n : nat) (desired_order : Z) (st : state)
    (allocation : page_ptr) : outcome (state * page_ptr) :=
  match n with
  | O => mret (st, allocation)
  | S n' =>
      '(st', allocation') ← split_step (desired_order + Z.of_nat n) st;
      split_loop n' desired_order st' allocation'
  end.

(** Lines 152-156. *)
Definition take_exact (desired_order : Z) (st : state)
    (allocation : page_ptr) : outcome (state * page_ptr) :=
  match allocation with
  | Null =>
      let allocation := list_entry desired_order in
      fa1 ← list_del (free_area st) desired_order;
      pages1 ← store_order (g_pages st) allocation desired_order;
      mret (mk_state fa1 pages1, allocation)
  | _ => mret (st, allocation)
  end.

(** [allocation] is declared without an initialiser (line 123) and read
    at line 152: [allocation0] is what the variable holds on entry. *)
Definition buddy_alloc (allocation0 : page_ptr) (st : state) (size : Z)
    : outcome (state * Z) :=
  '(desired_order, upper_order) ← find_orders (free_area st) size orders (-1) (-1);
  '(st1, allocation) ←
    split_loop (Z.to_nat (upper_order - desired_order)) desired_order st allocation0;
  '(st2, allocation) ← take_exact desired_order st1 allocation;
  addr ← location_of st2 allocation;
  mret (st2, addr).

(** ** [buddy_free] (lines 171-177): the body is empty. *)
Definition buddy_free (st : state) (addr : Z) : outcome state := mret st.

(** ** [buddy_dump] (lines 184-196) *)

(** Line 193: [printf("%d:%dK ", cnt, (1<<o)/1024)]. *)
Definition dump_field (cnt o : Z) : string :=
  pretty cnt +:+ ":" +:+ pretty (shl1 o / 1024) +:+ "K ".

Fixpoint dump_loop (fa : list list_head) (os : list Z) : outcome string :=
  match os with
  | [] => mret ""
  | o :: os' =>
      h ← at_index fa o;
      cnt ← list_for_each_count h;
      rest ← dump_loop fa os';
      mret (dump_field cnt o +:+ rest)
  end.

(** The text written to standard output, and the globals afterwards. *)
Definition buddy_dump (st : state) : outcome (state * string) :=
  line ← dump_loop (free_area st) orders;
  mret (st, line +:+ String (Ascii.ascii_of_nat 10) "").

(** ** What a caller can observe *)

(** The number of entries on the free list of order [o]. *)
Definition free_count (st : state) (o : Z) : Z :=
  match at_index (free_area st) o with
  | Ret (Some l) => Z.of_nat (length l)
  | _ => 0
  end.


(** Bytes on the free lists, as derived from a dump: count times block
    size, summed over the orders. *)
Definition free_bytes (st : state) : Z :=
  foldr (fun o acc => free_count st o * shl1 o + acc) 0 orders.

(** The order recorded in the page entry that heads the block at [addr]. *)
Definition block_order (st : state) (addr : Z) : outcome Z :=
  pg ← at_index (g_pages st) (ADDR_TO_PAGE addr); mret (order pg).

End Arena.

(** ** A sample run *)

(** A placement of the arena ([0x601000]); the program behaves alike at
    every placement. *)
Definition sample_base : Z := 6295552.

(** The globals after [buddy_init] at that placement. *)
Definition sample_init : state :=
  match buddy_init sample_base boot with
  | Ret st => st
  | Undef => boot
  end.

(** The globals as [buddy_init] leaves them, but with no entry on the list
    of order [MAX_ORDER] either: every list of the orders
    [MIN_ORDER .. MAX_ORDER] initialised and empty. *)
Definition sample_empty : state :=
  mk_state (set_index (free_area sample_init) MAX_ORDER INIT_LIST_HEAD)
           (g_pages sample_init).

(** ** States the program keeps to *)

Section Shape.

Variable g_memory : Z.

(** Entry [i] of [g_pages] as line 90 and line 91 leave it. *)
Definition page_ok (i : nat) (pg : page_t) : Prop :=
  location pg = PAGE_TO_ADDR g_memory (Z.of_nat i) /\ index pg = Z.of_nat i.

(** The arrays have their declared lengths, the lists of the orders
    [MIN_ORDER .. MAX_ORDER] are initialised, every entry linked on a list
    is an entry of [g_pages], and [location] and [index] are as
    [buddy_init] set them. *)
Record well_formed (st : state) : Prop := mk_well_formed {
  wf_area : length (free_area st) = Z.to_nat (MAX_ORDER + 1);
  wf_pages : length (g_pages st) = Z.to_nat n_pages;
  wf_lists : forall o, MIN_ORDER <= o <= MAX_ORDER ->
             exists l, at_index (free_area st) o = Ret (Some l);
  wf_entries : forall o l p, MIN_ORDER <= o <= MAX_ORDER ->
               at_index (free_area st) o = Ret (Some l) -> p ∈ l ->
               (p < Z.to_nat n_pages)%nat;
  wf_geometry : forall i pg, g_pages st !! i = Some pg -> page_ok i pg
}.

End Shape.

(** * Properties *)

(** ** Facts on machine integers *)

Module CIntFacts.

Lemma shl1_pow2 o : 0 <= o -> shl1 o = 2 ^ o.
Proof. intros Ho. unfold shl1. rewrite Z.shiftl_1_l. reflexivity. Qed.

Lemma ulong_range z : 0 <= ulong z < 2 ^ ULONG_BITS.
Proof. unfold ulong. apply Z.mod_pos_bound. reflexivity. Qed.

Lemma ulong_small z : 0 <= z < 2 ^ ULONG_BITS -> ulong z = z.
Proof. intros Hz. unfold ulong. apply Z.mod_small. exact Hz. Qed.

(** Exclusive or of two [unsigned long] values is an [unsigned long]. *)
Lemma lxor_ulong_range x y :
  0 <= x < 2 ^ ULONG_BITS -> 0 <= y < 2 ^ ULONG_BITS ->
  0 <= Z.lxor x y < 2 ^ ULONG_BITS.
Proof.
  intros [Hx0 Hx] [Hy0 Hy].
  assert (H0 : 0 <= Z.lxor x y) by (apply Z.lxor_nonneg; tauto).
  split; [exact H0|].
  destruct (Z.eq_dec (Z.lxor x y) 0) as [->|Hne]; [reflexivity|].
  apply Z.log2_lt_pow2; [lia|].
  pose proof (Z.log2_lxor x y Hx0 Hy0) as Hl.
  assert (Hlx : Z.log2 x < ULONG_BITS).
  { destruct (Z.eq_dec x 0) as [->|]; [reflexivity|].
    apply Z.log2_lt_pow2; lia. }
  assert (Hly : Z.log2 y < ULONG_BITS).
  { destruct (Z.eq_dec y 0) as [->|]; [reflexivity|].
    apply Z.log2_lt_pow2; lia. }
  lia.
Qed.

Lemma lxor_twice x m : Z.lxor (Z.lxor x m) m = x.
Proof. rewrite Z.lxor_assoc, Z.lxor_nilpotent, Z.lxor_0_r. reflexivity. Qed.

(** Flipping bit [k] leaves the bits below [k] alone. *)
Lemma lxor_pow2_low x k : 0 <= k -> Z.lxor x (2 ^ k) mod 2 ^ k = x mod 2 ^ k.
Proof.
  intros Hk. apply Z.bits_inj'. intros n Hn.
  destruct (Z.lt_ge_cases n k) as [Hlow|Hhigh].
  - rewrite !Z.mod_pow2_bits_low by lia.
    rewrite Z.lxor_spec, Z.pow2_bits_false by lia. apply xorb_false_r.
  - rewrite !Z.mod_pow2_bits_high by lia. reflexivity.
Qed.

(** Pointer difference and sum modulo the word. *)
Lemma ulong_sub a g : ulong (ulong a - ulong g) = ulong (a - g).
Proof. unfold ulong. rewrite Zminus_mod_idemp_l, Zminus_mod_idemp_r. reflexivity. Qed.

Lemma ulong_add_sub y g : ulong (ulong (y + ulong g) - g) = ulong y.
Proof.
  unfold ulong. rewrite Zminus_mod_idemp_l, <- Zminus_mod_idemp_l.
  rewrite Zplus_mod_idemp_r, Zminus_mod_idemp_l. f_equal. ring.
Qed.

Lemma ulong_sub_add a g : ulong (ulong (a - g) + ulong g) = ulong a.
Proof.
  unfold ulong. rewrite Zplus_mod_idemp_l, Zplus_mod_idemp_r. f_equal. ring.
Qed.

End CIntFacts.

Import CIntFacts.

Lemma string_app_assoc (a b c : string) : (a +:+ b) +:+ c = a +:+ (b +:+ c).
Proof.
  induction a as [|x a IH]; [reflexivity|].
  change (String x ((a +:+ b) +:+ c) = String x (a +:+ (b +:+ c))).
  f_equal. exact IH.
Qed.

Section ArenaFacts.

Variable g_memory : Z.

(** The offset computed inside [BUDDY_ADDR]. *)
Lemma BUDDY_ADDR_offset addr o :
  0 <= o < ULONG_BITS ->
  ulong (BUDDY_ADDR g_memory addr o - g_memory)
  = Z.lxor (ulong (addr - g_memory)) (shl1 o).
Proof.
  intros Ho. unfold BUDDY_ADDR.
  rewrite ulong_sub, ulong_add_sub. apply ulong_small.
  apply lxor_ulong_range; [apply ulong_range|].
  rewrite shl1_pow2 by lia. split; [apply Z.pow_nonneg; lia|].
  apply Z.pow_lt_mono_r; lia.
Qed.

(** [BUDDY_ADDR] is an involution on pointer values, at any shift the
    word allows. *)
Lemma BUDDY_ADDR_twice addr o :
  0 <= addr < 2 ^ ULONG_BITS -> 0 <= o < ULONG_BITS ->
  BUDDY_ADDR g_memory (BUDDY_ADDR g_memory addr o) o = addr.
Proof.
  intros Ha Ho.
  pose proof (BUDDY_ADDR_offset addr o Ho) as Hoff.
  unfold BUDDY_ADDR at 1.
  rewrite ulong_sub, Hoff, lxor_twice, ulong_sub_add.
  apply ulong_small. exact Ha.
Qed.

(** *** The buddy identity *)

(** C7. For every order [k] from [MIN_ORDER] to [MAX_ORDER] and every
    address [a] inside the arena whose offset from the arena base is a
    multiple of [2^k], [BUDDY_ADDR] flips bit [k] of the offset, which
    gives an offset that is a multiple of [2^k] again, and applying it twice
    at order [k] gives [a] back. *)
Theorem BUDDY_ADDR_buddy_identity (k a : Z) :
  arena_placed g_memory ->
  MIN_ORDER <= k <= MAX_ORDER ->
  g_memory <= a < g_memory + 2 ^ MAX_ORDER ->
  (a - g_memory) mod 2 ^ k = 0 ->
  ulong (BUDDY_ADDR g_memory a k - g_memory) = Z.lxor (a - g_memory) (2 ^ k)
  /\ ulong (BUDDY_ADDR g_memory a k - g_memory) mod 2 ^ k = 0
  /\ BUDDY_ADDR g_memory (BUDDY_ADDR g_memory a k) k = a.
Proof.
  intros [Hg0 Hg] Hk Ha Haligned.
  unfold MIN_ORDER, MAX_ORDER in *.
  assert (HW : 2 ^ MAX_ORDER < 2 ^ ULONG_BITS) by reflexivity.
  unfold MAX_ORDER in HW.
  assert (Hflip : ulong (BUDDY_ADDR g_memory a k - g_memory)
                  = Z.lxor (a - g_memory) (2 ^ k)).
  { rewrite BUDDY_ADDR_offset by (unfold ULONG_BITS; lia).
    rewrite shl1_pow2 by lia. f_equal. apply ulong_small. lia. }
  split; [exact Hflip|]. split.
  - rewrite Hflip, lxor_pow2_low by lia. exact Haligned.
  - apply BUDDY_ADDR_twice; unfold ULONG_BITS in *; lia.
Qed.

(** *** Initialisation *)

Lemma orders_ascending : orders = [12; 13; 14; 15; 16; 17; 18; 19; 20].
Proof. reflexivity. Qed.

Lemma init_pages_order (pg : page_t) :
  pg ∈ init_page g_memory <$> seqZ 0 n_pages -> order pg = uint8 (-1).
Proof.
  intros Hin. apply list_elem_of_fmap in Hin as (i & -> & _). reflexivity.
Qed.

(** C4. After [buddy_init] every page entry's [order] holds the value
    stored for "not a head" ([-1] as [uint8_t]), the free lists of the
    orders [MIN_ORDER] up to [MAX_ORDER - 1] are empty, and the list of
    [MAX_ORDER] holds exactly one entry, page 0 (whose [index] is 0). The
    hypothesis is the declared shape of [free_area]. *)
Theorem buddy_init_contract (st : state) :
  length (free_area st) = Z.to_nat (MAX_ORDER + 1) ->
  exists st',
    buddy_init g_memory st = Ret st'
    /\ length (g_pages st') = Z.to_nat n_pages
    /\ (forall pg, pg ∈ g_pages st' -> order pg = uint8 (-1))
    /\ (forall o, MIN_ORDER <= o < MAX_ORDER ->
         at_index (free_area st') o = Ret (Some []))
    /\ at_index (free_area st') MAX_ORDER = Ret (Some [0%nat])
    /\ index <$> g_pages st' !! 0%nat = Some 0.
Proof.
  destruct st as [fa pages]. cbn [free_area]. intros Hlen.
  change (Z.to_nat (MAX_ORDER + 1)) with 21%nat in Hlen.
  do 21 (destruct fa as [|? fa]; [discriminate Hlen|]).
  destruct fa; [|discriminate Hlen].
  eexists. split; [reflexivity|]. cbn [g_pages free_area].
  split; [|split; [|split; [|split]]].
  - rewrite length_fmap, length_seqZ. reflexivity.
  - apply init_pages_order.
  - intros o Ho. unfold MIN_ORDER, MAX_ORDER in Ho.
    assert (Hcases : o = 12 \/ o = 13 \/ o = 14 \/ o = 15 \/ o = 16
                     \/ o = 17 \/ o = 18 \/ o = 19) by lia.
    repeat (destruct Hcases as [->|Hcases]; [reflexivity|]).
    subst o. reflexivity.
  - reflexivity.
  - reflexivity.
Qed.

(** *** Dump *)

(** C9. With the free lists of the orders [MIN_ORDER .. MAX_ORDER]
    initialised, [buddy_dump] writes, for the orders 12 to 20 in ascending
    order, the number of entries on that order's free list in decimal,
    a colon, the block size in KiB and ["K "], then a newline, and leaves
    [free_area] and [g_pages] as they were. *)
Theorem buddy_dump_reports (st : state)
    (l12 l13 l14 l15 l16 l17 l18 l19 l20 : list nat) :
  at_index (free_area st) 12 = Ret (Some l12) ->
  at_index (free_area st) 13 = Ret (Some l13) ->
  at_index (free_area st) 14 = Ret (Some l14) ->
  at_index (free_area st) 15 = Ret (Some l15) ->
  at_index (free_area st) 16 = Ret (Some l16) ->
  at_index (free_area st) 17 = Ret (Some l17) ->
  at_index (free_area st) 18 = Ret (Some l18) ->
  at_index (free_area st) 19 = Ret (Some l19) ->
  at_index (free_area st) 20 = Ret (Some l20) ->
  buddy_dump st
  = Ret (st,
         pretty (Z.of_nat (length l12)) +:+ ":4K "
         +:+ pretty (Z.of_nat (length l13)) +:+ ":8K "
         +:+ pretty (Z.of_nat (length l14)) +:+ ":16K "
         +:+ pretty (Z.of_nat (length l15)) +:+ ":32K "
         +:+ pretty (Z.of_nat (length l16)) +:+ ":64K "
         +:+ pretty (Z.of_nat (length l17)) +:+ ":128K "
         +:+ pretty (Z.of_nat (length l18)) +:+ ":256K "
         +:+ pretty (Z.of_nat (length l19)) +:+ ":512K "
         +:+ pretty (Z.of_nat (length l20)) +:+ ":1024K "
         +:+ String (Ascii.ascii_of_nat 10) "").
Proof.
  intros H12 H13 H14 H15 H16 H17 H18 H19 H20.
  unfold buddy_dump. rewrite orders_ascending. cbn [dump_loop].
  rewrite H12, H13, H14, H15, H16, H17, H18, H19, H20.
  cbn [mbind outcome_bind list_for_each_count mret outcome_ret].
  unfold dump_field.
  change (pretty (shl1 12 / 1024)) with "4".
  change (pretty (shl1 13 / 1024)) with "8".
  change (pretty (shl1 14 / 1024)) with "16".
  change (pretty (shl1 15 / 1024)) with "32".
  change (pretty (shl1 16 / 1024)) with "64".
  change (pretty (shl1 17 / 1024)) with "128".
  change (pretty (shl1 18 / 1024)) with "256".
  change (pretty (shl1 19 / 1024)) with "512".
  change (pretty (shl1 20 / 1024)) with "1024".
  rewrite !string_app_assoc. reflexivity.
Qed.

(** *** Allocation: facts at every state *)

Lemma at_index_Ret {A} (l : list A) (i : Z) (a : A) :
  at_index l i = Ret a -> 0 <= i /\ l !! Z.to_nat i = Some a.
Proof.
  unfold at_index. destruct (0 <=? i) eqn:Hi; [|discriminate].
  destruct (l !! Z.to_nat i) eqn:Hl; [|discriminate].
  intros [= ->]. split; [lia|reflexivity].
Qed.

Lemma at_index_set_index {A} (l : list A) (i : Z) (a b : A) :
  at_index l i = Ret a -> at_index (set_index l i b) i = Ret b.
Proof.
  intros [Hi Hl]%at_index_Ret. unfold at_index, set_index.
  destruct (0 <=? i) eqn:Hi'; [|lia].
  rewrite list_lookup_insert_eq; [reflexivity|].
  apply lookup_lt_Some in Hl. exact Hl.
Qed.

(** Lines 147-149, had they a page entry to work on: the buddy computed
    from its [location] at order [i - 1] heads the free list of order
    [i - 1], and line 148 records order [i] in the buddy's entry. *)
Lemma split_push_order (i : Z) (st st' : state) (p : nat) :
  split_push g_memory i st (PagePtr p) = Ret st' ->
  exists pg rest,
    g_pages st !! p = Some pg
    /\ let buddy :=
         Z.to_nat (ADDR_TO_PAGE g_memory (BUDDY_ADDR g_memory (location pg) (i - 1))) in
       at_index (free_area st') (i - 1) = Ret (Some (buddy :: rest))
       /\ order <$> g_pages st' !! buddy = Some (uint8 i).
Proof.
  unfold split_push. cbn [location_of]. intros Hpush.
  destruct (at_index (g_pages st) (Z.of_nat p)) as [pg|] eqn:Hpg;
    cbn [mbind outcome_bind mret outcome_ret] in Hpush; [|congruence].
  match type of Hpush with
  | (at_index _ ?b ≫= _) = _ =>
      destruct (at_index (g_pages st) b) as [pb|] eqn:Hb
  end; cbn [mbind outcome_bind store_order] in Hpush; [|congruence].
  apply at_index_Ret in Hb as [_ Hb]. rewrite Hb in Hpush.
  cbn [mbind outcome_bind] in Hpush.
  destruct (at_index (free_area st) (i - 1)) as [h|] eqn:Hh;
    cbn [mbind outcome_bind] in Hpush; [|congruence].
  destruct h as [l|];
    cbn [mbind outcome_bind list_add mret outcome_ret] in Hpush; [|congruence].
  injection Hpush as <-.
  apply at_index_Ret in Hpg as [_ Hpg]. rewrite Nat2Z.id in Hpg.
  exists pg, l. split; [exact Hpg|]. cbn zeta. cbn [free_area g_pages]. split.
  - eapply at_index_set_index. exact Hh.
  - unfold set_order. rewrite list_lookup_alter_eq, Hb. reflexivity.
Qed.

(** Lines 142-145 store an order through the address of a list head: no
    pass of the split loop completes. *)
Lemma split_take_undefined (i : Z) (st : state) : split_take i st = Undef.
Proof.
  unfold split_take. destruct (list_del (free_area st) i); reflexivity.
Qed.

Lemma split_step_undefined (i : Z) (st : state) :
  split_step g_memory i st = Undef.
Proof. unfold split_step. rewrite split_take_undefined. reflexivity. Qed.

Lemma split_loop_returns (n : nat) (d : Z) (st st' : state) (a a' : page_ptr) :
  split_loop g_memory n d st a = Ret (st', a') ->
  n = 0%nat /\ st' = st /\ a' = a.
Proof.
  destruct n as [|n]; cbn [split_loop].
  - intros [= <- <-]. auto.
  - rewrite split_step_undefined. discriminate.
Qed.

(** Lines 153-155 do the same with the head of the desired order. *)
Lemma take_exact_null_undefined (d : Z) (st : state) :
  take_exact d st Null = Undef.
Proof.
  unfold take_exact. destruct (list_del (free_area st) d); reflexivity.
Qed.

(** A request above the arena size visits every order without choosing
    one, whatever the free lists hold. *)
Lemma find_orders_oversize (fa : list list_head) (size : Z) (todo : list Z) :
  (forall i, i ∈ todo -> shl1 i < size) ->
  find_orders fa size todo (-1) (-1) = Ret (-1, -1).
Proof.
  induction todo as [|i todo IH]; intros Hbig; [reflexivity|].
  cbn [find_orders].
  assert (Hi : (size <=? shl1 i) = false).
  { apply Z.leb_gt. apply Hbig. left. }
  rewrite Hi. cbn. apply IH. intros j Hj. apply Hbig. right. exact Hj.
Qed.

(** X12. A request above [2^MAX_ORDER] bytes reports no failure, whatever
    the globals hold: with [allocation] null on entry the call indexes
    [free_area] at [-1], which is undefined, and with [allocation] pointing
    to a page entry it returns that entry's [location] and leaves the
    globals as they were. *)
Lemma buddy_alloc_oversize (st : state) (size : Z) :
  2 ^ MAX_ORDER < size ->
  buddy_alloc g_memory Null st size = Undef
  /\ forall p, buddy_alloc g_memory (PagePtr p) st size
              = (addr ← location_of st (PagePtr p); mret (st, addr)).
Proof.
  intros Hsize.
  assert (Hfind : find_orders (free_area st) size orders (-1) (-1) = Ret (-1, -1)).
  { apply find_orders_oversize. intros i Hi. rewrite orders_ascending in Hi.
    assert (Hle : shl1 i <= 2 ^ MAX_ORDER).
    { repeat (apply elem_of_cons in Hi as [->|Hi]; [discriminate|]).
      inversion Hi. }
    lia. }
  unfold buddy_alloc. rewrite Hfind. split; [reflexivity|].
  intros p. reflexivity.
Qed.

(** With every list from the desired order [d] upwards empty, the search
    ends with [upper_order] still [-1], the split loop is not entered, and
    the call goes on to line 153 or line 159 as if a block had been found. *)
Lemma find_orders_below (fa : list list_head) (size : Z) (lo hi : list Z) (up : Z) :
  (forall i, i ∈ lo -> shl1 i < size) ->
  find_orders fa size (lo ++ hi) (-1) up = find_orders fa size hi (-1) up.
Proof.
  induction lo as [|i lo IH]; intros Hlo; [reflexivity|].
  cbn [app find_orders].
  assert (Hi : (size <=? shl1 i) = false).
  { apply Z.leb_gt. apply Hlo. left. }
  rewrite Hi. cbn. apply IH. intros j Hj. apply Hlo. right. exact Hj.
Qed.

Lemma find_orders_all_empty (fa : list list_head) (size : Z) (todo : list Z)
    (des up : Z) :
  MIN_ORDER <= des ->
  (forall i, i ∈ todo -> at_index fa i = Ret (Some [])) ->
  find_orders fa size todo des up = Ret (des, up).
Proof.
  intros Hdes. induction todo as [|i todo IH]; intros Hempty; [reflexivity|].
  cbn [find_orders].
  assert (Hlt : (des <? MIN_ORDER) = false) by (apply Z.ltb_ge; exact Hdes).
  assert (Hle : (MIN_ORDER <=? des) = true) by (apply Z.leb_le; exact Hdes).
  rewrite Hlt. cbn [andb]. rewrite Hle, (Hempty i) by left.
  cbn. apply IH. intros j Hj. apply Hempty. right. exact Hj.
Qed.

Lemma find_orders_exhausted (fa : list list_head) (size d : Z) :
  MIN_ORDER <= d <= MAX_ORDER ->
  size <= 2 ^ d ->
  (forall k, MIN_ORDER <= k < d -> 2 ^ k < size) ->
  (forall o, d <= o <= MAX_ORDER -> at_index fa o = Ret (Some [])) ->
  find_orders fa size orders (-1) (-1) = Ret (d, -1).
Proof.
  intros Hd Hsize Hsmall Hempty.
  assert (Hsplit : orders = seqZ MIN_ORDER (d - MIN_ORDER) ++ d :: seqZ (d + 1) (MAX_ORDER - d)).
  { unfold MIN_ORDER, MAX_ORDER in Hd.
    assert (C : d = 12 \/ d = 13 \/ d = 14 \/ d = 15 \/ d = 16
                \/ d = 17 \/ d = 18 \/ d = 19 \/ d = 20) by lia.
    repeat (destruct C as [->|C]; [reflexivity|]). subst d. reflexivity. }
  rewrite Hsplit, find_orders_below.
  - cbn [find_orders].
    assert (Hfit : (size <=? shl1 d) = true).
    { apply Z.leb_le. rewrite shl1_pow2 by (unfold MIN_ORDER in Hd; lia). exact Hsize. }
    assert (Hle : (MIN_ORDER <=? d) = true) by (apply Z.leb_le; lia).
    rewrite Hfit. cbn [Z.ltb Z.compare MIN_ORDER andb]. fold MIN_ORDER.
    rewrite Hle, (Hempty d) by lia. cbn [mbind outcome_bind list_empty negb].
    apply find_orders_all_empty; [lia|].
    intros i Hi. apply elem_of_seqZ in Hi. apply Hempty. lia.
  - intros i Hi. apply elem_of_seqZ in Hi.
    rewrite shl1_pow2 by (unfold MIN_ORDER in Hi; lia). apply Hsmall. lia.
Qed.

(** X13. With every list from the desired order [d] up to [MAX_ORDER] empty
    no failure is reported: with [allocation] null on entry the call goes
    on to lines 153-155 and uses the list head of order [d] as a page
    entry, which is undefined, and with [allocation] pointing to a page
    entry it returns that entry's [location] and leaves the globals as they
    were. *)
Lemma buddy_alloc_exhausted (st : state) (size d : Z) :
  MIN_ORDER <= d <= MAX_ORDER ->
  size <= 2 ^ d ->
  (forall k, MIN_ORDER <= k < d -> 2 ^ k < size) ->
  (forall o, d <= o <= MAX_ORDER -> at_index (free_area st) o = Ret (Some [])) ->
  buddy_alloc g_memory Null st size = Undef
  /\ forall p, buddy_alloc g_memory (PagePtr p) st size
              = (addr ← location_of st (PagePtr p); mret (st, addr)).
Proof.
  intros Hd Hsize Hsmall Hempty.
  unfold buddy_alloc.
  rewrite (find_orders_exhausted _ _ d Hd Hsize Hsmall Hempty).
  cbn [mbind outcome_bind].
  replace (Z.to_nat (-1 - d)) with 0%nat by (unfold MIN_ORDER in Hd; lia).
  cbn [split_loop mret outcome_ret outcome_bind mbind].
  split; [|reflexivity].
  rewrite take_exact_null_undefined. reflexivity.
Qed.

(** *** Free *)

(** C10. For every address, [buddy_free] returns and leaves every free
    list, every page entry and all other allocator state as it was. *)
Theorem buddy_free_changes_nothing (st : state) (addr : Z) :
  buddy_free st addr = Ret st.
Proof. reflexivity. Qed.

End ArenaFacts.

(** ** Runs from [buddy_init] *)

Ltac run := vm_compute; reflexivity.

Ltac each_order o H :=
  unfold MIN_ORDER, MAX_ORDER in H;
  let C := fresh "C" in
  assert (C : o = 12 \/ o = 13 \/ o = 14 \/ o = 15 \/ o = 16
              \/ o = 17 \/ o = 18 \/ o = 19 \/ o = 20) by lia;
  clear H; repeat (destruct C as [->|C]); try subst o.

Lemma sample_init_run : buddy_init sample_base boot = Ret sample_init.
Proof. run. Qed.

Lemma sample_init_lists (o : Z) :
  MIN_ORDER <= o <= MAX_ORDER ->
  exists l, at_index (free_area sample_init) o = Ret (Some l).
Proof. intros Ho. each_order o Ho; eexists; run. Qed.

(** C1. [buddy_init(); buddy_alloc(4096)]: the search gives desired order
    12 and source order 20. In the first pass of the split loop ([i = 20])
    line 142 names the list head [free_area[20]] itself, not the block on
    the list; line 143 unlinks that head; line 145 stores the order through
    it, which is undefined. No block is halved, no buddy entry is written
    and nothing is pushed: the pass and the call do not complete, whatever
    [allocation] held on entry. *)
Theorem alloc_split_trace :
  find_orders (free_area sample_init) 4096 orders (-1) (-1) = Ret (12, 20)
  /\ at_index (free_area sample_init) 20 = Ret (Some [0%nat])
  /\ list_entry 20 = HeadPtr 20
  /\ (exists fa1,
        list_del (free_area sample_init) 20 = Ret fa1
        /\ at_index fa1 20 = Ret None
        /\ at_index fa1 19 = Ret (Some []))
  /\ store_order (g_pages sample_init) (list_entry 20) 20 = Undef
  /\ split_step sample_base 20 sample_init = Undef
  /\ (forall allocation0,
        buddy_alloc sample_base allocation0 sample_init 4096 = Undef).
Proof.
  split; [run|]. split; [run|]. split; [reflexivity|].
  split; [eexists; split; [run|split; run]|].
  split; [reflexivity|]. split; [run|].
  intros []; run.
Qed.




(** C6. [buddy_init(); buddy_alloc((1<<20) + 1)]: no order is found
    ([desired_order] and [upper_order] stay [-1]) and no failure is
    reported: with [allocation] null on entry the call reads
    [free_area[-1]], which is undefined; with [allocation] pointing to page
    0 it returns the address of that page. *)
Theorem alloc_oversize_no_error :
  find_orders (free_area sample_init) (2 ^ MAX_ORDER + 1) orders (-1) (-1)
  = Ret (-1, -1)
  /\ buddy_alloc sample_base Null sample_init (2 ^ MAX_ORDER + 1) = Undef
  /\ buddy_alloc sample_base Wild sample_init (2 ^ MAX_ORDER + 1) = Undef
  /\ buddy_alloc sample_base (PagePtr 0) sample_init (2 ^ MAX_ORDER + 1)
     = Ret (sample_init, sample_base).
Proof. split; [run|]. split; [run|]. split; run. Qed.

(** C8. [buddy_init(); addr = buddy_alloc(1<<20)], entered with
    [allocation] pointing to [g_pages[7]]: the call returns the address of
    page 7 and takes nothing from the free lists, which still hold the
    [2^20] bytes of the whole arena. Whatever size the block handed out is
    counted at, the sum with the free bytes is above [2^20]. *)
Theorem capacity_exceeded_by_stale_return :
  free_bytes sample_init = 2 ^ MAX_ORDER
  /\ buddy_alloc sample_base (PagePtr 7) sample_init (2 ^ 20)
     = Ret (sample_init, PAGE_TO_ADDR sample_base 7)
  /\ block_order sample_base sample_init (PAGE_TO_ADDR sample_base 7)
     = Ret (uint8 (-1))
  /\ forall block_bytes,
       0 < block_bytes ->
       block_bytes + free_bytes sample_init <> 2 ^ MAX_ORDER.
Proof.
  assert (Hfree : free_bytes sample_init = 2 ^ MAX_ORDER) by run.
  split; [exact Hfree|]. split; [run|]. split; [run|].
  intros b Hb. rewrite Hfree. lia.
Qed.

(** ** The general statements at the sample run *)

(** [BUDDY_ADDR_buddy_identity] at order 13 and the fourth block of that
    order. *)
Lemma BUDDY_ADDR_buddy_identity_witness :
  arena_placed sample_base
  /\ MIN_ORDER <= 13 <= MAX_ORDER
  /\ sample_base <= sample_base + 3 * 8192 < sample_base + 2 ^ MAX_ORDER
  /\ (sample_base + 3 * 8192 - sample_base) mod 2 ^ 13 = 0
  /\ ulong (BUDDY_ADDR sample_base (sample_base + 3 * 8192) 13 - sample_base)
     = Z.lxor (sample_base + 3 * 8192 - sample_base) (2 ^ 13)
  /\ ulong (BUDDY_ADDR sample_base (sample_base + 3 * 8192) 13 - sample_base)
     mod 2 ^ 13 = 0
  /\ BUDDY_ADDR sample_base (BUDDY_ADDR sample_base (sample_base + 3 * 8192) 13) 13
     = sample_base + 3 * 8192.
Proof.
  assert (H1 : arena_placed sample_base) by (split; vm_compute; discriminate).
  assert (H2 : MIN_ORDER <= 13 <= MAX_ORDER) by (split; vm_compute; discriminate).
  assert (H3 : sample_base <= sample_base + 3 * 8192 < sample_base + 2 ^ MAX_ORDER)
    by (split; vm_compute; [discriminate|reflexivity]).
  assert (H4 : (sample_base + 3 * 8192 - sample_base) mod 2 ^ 13 = 0)
    by (vm_compute; reflexivity).
  split; [exact H1|]. split; [exact H2|]. split; [exact H3|]. split; [exact H4|].
  apply (BUDDY_ADDR_buddy_identity sample_base 13 (sample_base + 3 * 8192) H1 H2 H3 H4).
Defined.

(** [buddy_init_contract] on the static storage as the program starts. *)
Lemma buddy_init_contract_witness :
  length (free_area boot) = Z.to_nat (MAX_ORDER + 1)
  /\ exists st',
       buddy_init sample_base boot = Ret st'
       /\ length (g_pages st') = Z.to_nat n_pages
       /\ (forall pg, pg ∈ g_pages st' -> order pg = uint8 (-1))
       /\ (forall o, MIN_ORDER <= o < MAX_ORDER ->
            at_index (free_area st') o = Ret (Some []))
       /\ at_index (free_area st') MAX_ORDER = Ret (Some [0%nat])
       /\ index <$> g_pages st' !! 0%nat = Some 0.
Proof.
  split; [reflexivity|].
  apply (buddy_init_contract sample_base boot). reflexivity.
Defined.

(** [buddy_dump_reports] right after [buddy_init]: the text is
    ["0:4K 0:8K 0:16K 0:32K 0:64K 0:128K 0:256K 0:512K 1:1024K "] and a
    newline. *)
Lemma buddy_dump_reports_witness :
  at_index (free_area sample_init) 12 = Ret (Some [])
  /\ at_index (free_area sample_init) 13 = Ret (Some [])
  /\ at_index (free_area sample_init) 14 = Ret (Some [])
  /\ at_index (free_area sample_init) 15 = Ret (Some [])
  /\ at_index (free_area sample_init) 16 = Ret (Some [])
  /\ at_index (free_area sample_init) 17 = Ret (Some [])
  /\ at_index (free_area sample_init) 18 = Ret (Some [])
  /\ at_index (free_area sample_init) 19 = Ret (Some [])
  /\ at_index (free_area sample_init) 20 = Ret (Some [0%nat])
  /\ buddy_dump sample_init
     = Ret (sample_init,
            "0:4K 0:8K 0:16K 0:32K 0:64K 0:128K 0:256K 0:512K 1:1024K "
            +:+ String (Ascii.ascii_of_nat 10) "").
Proof.
  assert (H12 : at_index (free_area sample_init) 12 = Ret (Some []))
    by (vm_compute; reflexivity).
  assert (H13 : at_index (free_area sample_init) 13 = Ret (Some []))
    by (vm_compute; reflexivity).
  assert (H14 : at_index (free_area sample_init) 14 = Ret (Some []))
    by (vm_compute; reflexivity).
  assert (H15 : at_index (free_area sample_init) 15 = Ret (Some []))
    by (vm_compute; reflexivity).
  assert (H16 : at_index (free_area sample_init) 16 = Ret (Some []))
    by (vm_compute; reflexivity).
  assert (H17 : at_index (free_area sample_init) 17 = Ret (Some []))
    by (vm_compute; reflexivity).
  assert (H18 : at_index (free_area sample_init) 18 = Ret (Some []))
    by (vm_compute; reflexivity).
  assert (H19 : at_index (free_area sample_init) 19 = Ret (Some []))
    by (vm_compute; reflexivity).
  assert (H20 : at_index (free_area sample_init) 20 = Ret (Some [0%nat]))
    by (vm_compute; reflexivity).
  repeat (split; [assumption|]).
  exact (buddy_dump_reports sample_init [] [] [] [] [] [] [] [] [0%nat]
           H12 H13 H14 H15 H16 H17 H18 H19 H20).
Defined.

(** The text of that dump. *)
Example dump_after_init :
  buddy_dump sample_init
  = Ret (sample_init,
         "0:4K 0:8K 0:16K 0:32K 0:64K 0:128K 0:256K 0:512K 1:1024K "
         +:+ String (Ascii.ascii_of_nat 10) "").
Proof. run. Qed.

(** * Further properties of the code *)

(** ** Bit and word facts *)

Module BitFacts.

(** Flipping bit [k] adds or subtracts [2^k], by the bit's value. *)
Lemma lxor_pow2_clear x k :
  0 <= k -> Z.testbit x k = false -> Z.lxor x (2 ^ k) = x + 2 ^ k.
Proof.
  intros Hk Hbit. symmetry. apply Z.add_nocarry_lxor.
  apply Z.bits_inj'. intros n Hn.
  rewrite Z.land_spec, Z.bits_0, Z.pow2_bits_eqb by exact Hk.
  destruct (Z.eqb_spec k n) as [->|_]; [rewrite Hbit; reflexivity|].
  apply andb_false_r.
Qed.

Lemma lxor_pow2_set x k :
  0 <= k -> Z.testbit x k = true -> Z.lxor x (2 ^ k) = x - 2 ^ k.
Proof.
  intros Hk Hbit.
  assert (Hclear : Z.testbit (Z.lxor x (2 ^ k)) k = false).
  { rewrite Z.lxor_spec, Hbit, Z.pow2_bits_true by exact Hk. reflexivity. }
  pose proof (lxor_pow2_clear _ k Hk Hclear) as Hback.
  rewrite lxor_twice in Hback. lia.
Qed.

(** Bit [k] of a multiple of [2^k] is the parity of the quotient. *)
Lemma testbit_multiple q k :
  0 <= k -> Z.testbit (q * 2 ^ k) k = Z.odd q.
Proof.
  intros Hk. rewrite Z.mul_pow2_bits by exact Hk.
  rewrite Z.sub_diag. apply Z.bit0_odd.
Qed.

(** Exclusive or commutes with scaling by a power of two. *)
Lemma lxor_scaled x y n :
  0 <= n -> Z.lxor (x * 2 ^ n) (y * 2 ^ n) / 2 ^ n = Z.lxor x y.
Proof.
  intros Hn. rewrite <- !Z.shiftl_mul_pow2 by exact Hn.
  rewrite <- Z.shiftl_lxor, <- Z.shiftr_div_pow2 by exact Hn.
  rewrite Z.shiftr_shiftl_l by exact Hn.
  rewrite Z.sub_diag. apply Z.shiftl_0_r.
Qed.

End BitFacts.

Import BitFacts.

(** ** The address macros *)

Section MacroFacts.

Variable g_memory : Z.
Hypothesis placed : arena_placed g_memory.

Lemma PAGE_SIZE_value : PAGE_SIZE = 4096.
Proof. reflexivity. Qed.

Lemma n_pages_value : n_pages = 256.
Proof. reflexivity. Qed.

(** X1. Every byte of page [i] is mapped back to [i]: [ADDR_TO_PAGE] undoes
    [PAGE_TO_ADDR] and ignores the offset inside the page. *)
Theorem ADDR_TO_PAGE_inside (i off : Z) :
  0 <= i < n_pages -> 0 <= off < PAGE_SIZE ->
  ADDR_TO_PAGE g_memory (PAGE_TO_ADDR g_memory i + off) = i.
Proof.
  rewrite n_pages_value, PAGE_SIZE_value. intros Hi Hoff.
  unfold ADDR_TO_PAGE, PAGE_TO_ADDR. rewrite PAGE_SIZE_value.
  replace (i * 4096 + g_memory + off - g_memory) with (off + i * 4096) by ring.
  rewrite ulong_small by (unfold ULONG_BITS; lia).
  rewrite Z.div_add by discriminate. rewrite Z.div_small by lia. lia.
Qed.

(** X2. For an address inside the arena [PAGE_TO_ADDR] of its page index is
    the address rounded down to the start of its page. *)
Theorem PAGE_TO_ADDR_rounds_down (a : Z) :
  g_memory <= a < g_memory + 2 ^ MAX_ORDER ->
  PAGE_TO_ADDR g_memory (ADDR_TO_PAGE g_memory a)
  = a - (a - g_memory) mod PAGE_SIZE.
Proof.
  destruct placed as [Hg0 Hg]. unfold MAX_ORDER in *. intros Ha.
  unfold ADDR_TO_PAGE, PAGE_TO_ADDR. rewrite PAGE_SIZE_value.
  rewrite ulong_small by (unfold ULONG_BITS in *; lia).
  pose proof (Z.div_mod (a - g_memory) 4096) as Hdm. lia.
Qed.

(** X3. The page index is inside [g_pages] exactly for the addresses inside
    the arena: an address below [g_memory] wraps to an index past the end,
    never to a negative one. *)
Theorem ADDR_TO_PAGE_in_range (a : Z) :
  0 <= a < 2 ^ ULONG_BITS ->
  0 <= ADDR_TO_PAGE g_memory a < n_pages
  <-> g_memory <= a < g_memory + 2 ^ MAX_ORDER.
Proof.
  destruct placed as [Hg0 Hg]. unfold MAX_ORDER, ULONG_BITS in *. intros Ha.
  unfold ADDR_TO_PAGE. rewrite PAGE_SIZE_value, n_pages_value.
  destruct (Z_lt_le_dec a g_memory) as [Hlow|Hhigh].
  - assert (Hwrap : ulong (a - g_memory) = a - g_memory + 2 ^ 64).
    { unfold ulong, ULONG_BITS.
      rewrite <- (Z.mod_add _ 1) by discriminate.
      apply Z.mod_small. lia. }
    rewrite Hwrap. split; [|lia]. intros [_ Hlt].
    pose proof (Z.div_le_lower_bound (a - g_memory + 2 ^ 64) 4096 256). lia.
  - rewrite ulong_small by (unfold ULONG_BITS; lia). split.
    + intros [_ Hlt].
      pose proof (Z.div_le_lower_bound (a - g_memory) 4096 256). lia.
    + intros [_ Hlt]. split; [apply Z.div_pos; lia|].
      apply Z.div_lt_upper_bound; lia.
Qed.

(** X4. Below [MAX_ORDER] the buddy of an aligned block of the arena is an
    aligned block of the arena next to it, [2^k] bytes above or below, and
    the lower of the two starts a block of order [k + 1]. *)
Theorem BUDDY_ADDR_neighbour (k a : Z) :
  MIN_ORDER <= k < MAX_ORDER ->
  g_memory <= a < g_memory + 2 ^ MAX_ORDER ->
  (a - g_memory) mod 2 ^ k = 0 ->
  let b := BUDDY_ADDR g_memory a k in
  g_memory <= b < g_memory + 2 ^ MAX_ORDER
  /\ (b = a + 2 ^ k \/ b = a - 2 ^ k)
  /\ (Z.min a b - g_memory) mod 2 ^ (k + 1) = 0.
Proof.
  destruct placed as [Hg0 Hg]. unfold MIN_ORDER, MAX_ORDER, ULONG_BITS in *.
  intros Hk Ha Haligned. cbn zeta.
  set (x := a - g_memory) in *.
  assert (HP : 0 < 2 ^ k) by (apply Z.pow_pos_nonneg; lia).
  assert (Hx : x = x / 2 ^ k * 2 ^ k).
  { pose proof (Z.div_mod x (2 ^ k)) as Hdm. lia. }
  set (q := x / 2 ^ k) in *.
  assert (H20 : 2 ^ 20 = 2 ^ (20 - k) * 2 ^ k).
  { rewrite <- Z.pow_add_r by lia. f_equal. lia. }
  assert (HM : 2 ^ (20 - k) = 2 * 2 ^ (19 - k)).
  { replace (20 - k) with (Z.succ (19 - k)) by lia. apply Z.pow_succ_r. lia. }
  assert (HM' : 0 < 2 ^ (19 - k)) by (apply Z.pow_pos_nonneg; lia).
  assert (H2P : 2 ^ (k + 1) = 2 * 2 ^ k) by (apply Z.pow_succ_r; lia).
  assert (Hq : 0 <= q < 2 * 2 ^ (19 - k)) by nia.
  assert (Hflip : Z.lxor x (2 ^ k) = if Z.odd q then x - 2 ^ k else x + 2 ^ k).
  { destruct (Z.odd q) eqn:Hodd.
    - apply lxor_pow2_set; [lia|]. rewrite Hx, testbit_multiple by lia. exact Hodd.
    - apply lxor_pow2_clear; [lia|]. rewrite Hx, testbit_multiple by lia. exact Hodd. }
  pose proof (Z.div2_odd q) as Hpar.
  assert (Hy : 0 <= Z.lxor x (2 ^ k) < 2 ^ 20).
  { rewrite Hflip. destruct (Z.odd q); cbn [Z.b2z] in Hpar; nia. }
  assert (Hbuddy : BUDDY_ADDR g_memory a k = Z.lxor x (2 ^ k) + g_memory).
  { unfold BUDDY_ADDR. rewrite ulong_sub. fold x.
    rewrite shl1_pow2 by lia.
    rewrite (ulong_small x), (ulong_small g_memory) by (unfold ULONG_BITS; nia).
    apply ulong_small. unfold ULONG_BITS. lia. }
  rewrite Hbuddy. split; [lia|]. split.
  - rewrite Hflip. destruct (Z.odd q); [right|left]; unfold x; ring.
  - rewrite Hflip, H2P. destruct (Z.odd q); cbn [Z.b2z] in Hpar.
    + rewrite Z.min_r by lia.
      replace (x - 2 ^ k + g_memory - g_memory) with (Z.div2 q * (2 * 2 ^ k)) by nia.
      apply Z.mod_mul. lia.
    + rewrite Z.min_l by lia. fold x.
      replace x with (Z.div2 q * (2 * 2 ^ k)) by nia.
      apply Z.mod_mul. lia.
Qed.

(** X5. In page indices the buddy computation of line 147 is an exclusive or
    of the index with [2^(k - MIN_ORDER)]. *)
Theorem buddy_page_index (x k : Z) :
  0 <= x < n_pages -> MIN_ORDER <= k <= MAX_ORDER ->
  ADDR_TO_PAGE g_memory (BUDDY_ADDR g_memory (PAGE_TO_ADDR g_memory x) k)
  = Z.lxor x (2 ^ (k - MIN_ORDER)).
Proof.
  destruct placed as [Hg0 Hg]. rewrite n_pages_value.
  unfold MIN_ORDER, MAX_ORDER, ULONG_BITS in *. intros Hx Hk.
  unfold ADDR_TO_PAGE. rewrite BUDDY_ADDR_offset by (unfold ULONG_BITS; lia).
  unfold PAGE_TO_ADDR. rewrite PAGE_SIZE_value, shl1_pow2 by lia.
  replace (x * 4096 + g_memory - g_memory) with (x * 2 ^ 12) by (change (2 ^ 12) with 4096; ring).
  rewrite ulong_small by (unfold ULONG_BITS; lia).
  replace (2 ^ k) with (2 ^ (k - 12) * 2 ^ 12)
    by (rewrite <- Z.pow_add_r by lia; f_equal; lia).
  change 4096 with (2 ^ 12). apply lxor_scaled. lia.
Qed.

End MacroFacts.

(** ** The shape of the globals after [buddy_init] *)

Section ShapeFacts.

Variable g_memory : Z.

Lemma at_index_lookup {A} (l : list A) (i : Z) (a : A) :
  0 <= i -> l !! Z.to_nat i = Some a -> at_index l i = Ret a.
Proof.
  intros Hi Hl. unfold at_index.
  destruct (0 <=? i) eqn:Hi'; [|lia]. rewrite Hl. reflexivity.
Qed.

Lemma buddy_init_shape (st st' : state) :
  length (free_area st) = Z.to_nat (MAX_ORDER + 1) ->
  buddy_init g_memory st = Ret st' ->
  well_formed g_memory st'.
Proof.
  destruct st as [fa pages]. cbn [free_area]. intros Hlen.
  change (Z.to_nat (MAX_ORDER + 1)) with 21%nat in Hlen.
  do 21 (destruct fa as [|? fa]; [discriminate Hlen|]).
  destruct fa; [|discriminate Hlen].
  intros Hinit. unfold buddy_init in Hinit. cbv zeta in Hinit.
  remember (init_page g_memory <$> seqZ 0 n_pages) as pgs eqn:Hpgs.
  cbn in Hinit. injection Hinit as <-. subst pgs.
  split; cbn [free_area g_pages].
  - reflexivity.
  - rewrite length_fmap, length_seqZ. reflexivity.
  - intros o Ho. unfold MIN_ORDER, MAX_ORDER in Ho.
    assert (C : o = 12 \/ o = 13 \/ o = 14 \/ o = 15 \/ o = 16
                \/ o = 17 \/ o = 18 \/ o = 19 \/ o = 20) by lia.
    repeat (destruct C as [->|C]; [eexists; reflexivity|]).
    subst o. eexists. reflexivity.
  - intros o lo p Ho Hl Hin. unfold MIN_ORDER, MAX_ORDER in Ho.
    assert (C : o = 12 \/ o = 13 \/ o = 14 \/ o = 15 \/ o = 16
                \/ o = 17 \/ o = 18 \/ o = 19 \/ o = 20) by lia.
    repeat (destruct C as [->|C];
            [injection Hl as <-; apply elem_of_nil in Hin; contradiction|]).
    subst o. injection Hl as <-. apply list_elem_of_singleton in Hin as ->.
    vm_compute. lia.
  - intros i pg Hpg. rewrite list_lookup_fmap in Hpg.
    destruct (seqZ 0 n_pages !! i) as [z|] eqn:Hz; [|discriminate Hpg].
    injection Hpg as <-. apply lookup_seqZ in Hz as [-> _].
    split; cbn [location index init_page]; f_equal; lia.
Qed.

(** X6. [buddy_init] leaves the globals well formed, whatever they held. *)
Theorem buddy_init_well_formed (st st' : state) :
  length (free_area st) = Z.to_nat (MAX_ORDER + 1) ->
  buddy_init g_memory st = Ret st' ->
  well_formed g_memory st'.
Proof. apply buddy_init_shape. Qed.

End ShapeFacts.

(** ** The search for the two orders (lines 126-136) *)

Section SearchFacts.

(** Once [desired_order] is set, the loop looks for the first list with an
    entry among the orders still to visit. *)
Lemma find_orders_found (fa : list list_head) (size : Z) (n : nat) :
  forall i des up,
    MIN_ORDER <= des ->
    (forall o, i <= o < i + Z.of_nat n -> exists l, at_index fa o = Ret (Some l)) ->
    exists u,
      find_orders fa size (seqZ i (Z.of_nat n)) des up = Ret (des, u)
      /\ ((u = up /\ forall o, i <= o < i + Z.of_nat n ->
                             at_index fa o = Ret (Some []))
          \/ (i <= u < i + Z.of_nat n
              /\ (exists p l, at_index fa u = Ret (Some (p :: l)))
              /\ forall o, i <= o < u -> at_index fa o = Ret (Some []))).
Proof.
  induction n as [|n IH]; intros i des up Hdes Hinit.
  - exists up. split; [reflexivity|]. left. split; [reflexivity|]. intros o Ho. lia.
  - rewrite seqZ_cons by lia.
    replace (Z.pred (Z.of_nat (S n))) with (Z.of_nat n) by lia.
    cbn [find_orders].
    assert (Hlt : (des <? MIN_ORDER) = false) by (apply Z.ltb_ge; exact Hdes).
    assert (Hle : (MIN_ORDER <=? des) = true) by (apply Z.leb_le; exact Hdes).
    rewrite Hlt. cbn [andb]. rewrite Hle.
    destruct (Hinit i) as [l Hl]; [lia|]. rewrite Hl. cbn [mbind outcome_bind].
    destruct l as [|p l]; cbn [list_empty negb].
    + destruct (IH (Z.succ i) des up Hdes) as [u [Hu Hcase]].
      { intros o Ho. apply Hinit. lia. }
      exists u. split; [exact Hu|].
      destruct Hcase as [[-> Hall]|(Hr & Hne & Hall)].
      * left. split; [reflexivity|]. intros o Ho.
        destruct (Z.eq_dec o i) as [->|]; [exact Hl|]. apply Hall. lia.
      * right. split; [lia|]. split; [exact Hne|]. intros o Ho.
        destruct (Z.eq_dec o i) as [->|]; [exact Hl|]. apply Hall. lia.
    + exists i. split; [reflexivity|]. right.
      split; [lia|]. split; [eauto|]. intros o Ho. lia.
Qed.

(** At the first order that fits, [desired_order] is set and the same
    pass already looks at that order's list. *)
Lemma find_orders_hit (fa : list list_head) (size d : Z) (rest : list Z) (up : Z) :
  MIN_ORDER <= d -> size <= shl1 d ->
  find_orders fa size (d :: rest) (-1) up = find_orders fa size (d :: rest) d up.
Proof.
  intros Hd Hfit. cbn [find_orders].
  assert (Hs : (size <=? shl1 d) = true) by (apply Z.leb_le; exact Hfit).
  assert (Hlt : (d <? MIN_ORDER) = false) by (apply Z.ltb_ge; exact Hd).
  rewrite Hs, Hlt. reflexivity.
Qed.

Lemma orders_split (d : Z) :
  MIN_ORDER <= d <= MAX_ORDER ->
  orders = seqZ MIN_ORDER (d - MIN_ORDER)
           ++ seqZ d (Z.of_nat (Z.to_nat (MAX_ORDER + 1 - d))).
Proof.
  unfold MIN_ORDER, MAX_ORDER. intros Hd.
  assert (C : d = 12 \/ d = 13 \/ d = 14 \/ d = 15 \/ d = 16
              \/ d = 17 \/ d = 18 \/ d = 19 \/ d = 20) by lia.
  repeat (destruct C as [->|C]; [reflexivity|]). subst d. reflexivity.
Qed.

(** The smallest order whose block holds [size] bytes. *)
Lemma desired_order_exists (size : Z) :
  size <= 2 ^ MAX_ORDER ->
  exists d, MIN_ORDER <= d <= MAX_ORDER /\ size <= 2 ^ d
            /\ forall k, MIN_ORDER <= k < d -> 2 ^ k < size.
Proof.
  unfold MIN_ORDER, MAX_ORDER. intros Hsize.
  assert (Hmono : forall k d, 0 <= k < d -> 2 ^ k <= 2 ^ (d - 1)).
  { intros k d Hk. apply Z.pow_le_mono_r; lia. }
  destruct (Z_le_gt_dec size (2 ^ 12)) as [H12|H12].
  { exists 12. split; [lia|]. split; [exact H12|]. intros k Hk. lia. }
  destruct (Z_le_gt_dec size (2 ^ 13)) as [H13|H13].
  { exists 13. split; [lia|]. split; [exact H13|]. intros k Hk.
    pose proof (Hmono k 13). change (2 ^ (13 - 1)) with (2 ^ 12) in *. lia. }
  destruct (Z_le_gt_dec size (2 ^ 14)) as [H14|H14].
  { exists 14. split; [lia|]. split; [exact H14|]. intros k Hk.
    pose proof (Hmono k 14). change (2 ^ (14 - 1)) with (2 ^ 13) in *. lia. }
  destruct (Z_le_gt_dec size (2 ^ 15)) as [H15|H15].
  { exists 15. split; [lia|]. split; [exact H15|]. intros k Hk.
    pose proof (Hmono k 15). change (2 ^ (15 - 1)) with (2 ^ 14) in *. lia. }
  destruct (Z_le_gt_dec size (2 ^ 16)) as [H16|H16].
  { exists 16. split; [lia|]. split; [exact H16|]. intros k Hk.
    pose proof (Hmono k 16). change (2 ^ (16 - 1)) with (2 ^ 15) in *. lia. }
  destruct (Z_le_gt_dec size (2 ^ 17)) as [H17|H17].
  { exists 17. split; [lia|]. split; [exact H17|]. intros k Hk.
    pose proof (Hmono k 17). change (2 ^ (17 - 1)) with (2 ^ 16) in *. lia. }
  destruct (Z_le_gt_dec size (2 ^ 18)) as [H18|H18].
  { exists 18. split; [lia|]. split; [exact H18|]. intros k Hk.
    pose proof (Hmono k 18). change (2 ^ (18 - 1)) with (2 ^ 17) in *. lia. }
  destruct (Z_le_gt_dec size (2 ^ 19)) as [H19|H19].
  { exists 19. split; [lia|]. split; [exact H19|]. intros k Hk.
    pose proof (Hmono k 19). change (2 ^ (19 - 1)) with (2 ^ 18) in *. lia. }
  exists 20. split; [lia|]. split; [exact Hsize|]. intros k Hk.
  pose proof (Hmono k 20). change (2 ^ (20 - 1)) with (2 ^ 19) in *. lia.
Qed.

(** The search at a fitting size, given the desired order. *)
Lemma find_orders_at (fa : list list_head) (size d : Z) :
  MIN_ORDER <= d <= MAX_ORDER ->
  size <= 2 ^ d ->
  (forall k, MIN_ORDER <= k < d -> 2 ^ k < size) ->
  (forall o, d <= o <= MAX_ORDER -> exists l, at_index fa o = Ret (Some l)) ->
  exists u,
    find_orders fa size orders (-1) (-1) = Ret (d, u)
    /\ ((u = -1 /\ forall o, d <= o <= MAX_ORDER -> at_index fa o = Ret (Some []))
        \/ (d <= u <= MAX_ORDER
            /\ (exists p l, at_index fa u = Ret (Some (p :: l)))
            /\ forall o, d <= o < u -> at_index fa o = Ret (Some []))).
Proof.
  intros Hd Hfit Hsmall Hinit.
  rewrite (orders_split d Hd), find_orders_below.
  - set (n := Z.to_nat (MAX_ORDER + 1 - d)).
    assert (Hn : Z.of_nat n = MAX_ORDER + 1 - d) by (unfold n; lia).
    destruct (find_orders_found fa size n d d (-1)) as [u [Hu Hcase]].
    { lia. }
    { intros o Ho. apply Hinit. lia. }
    exists u. split.
    + rewrite <- Hu. rewrite seqZ_cons by lia. apply find_orders_hit; [lia|].
      rewrite shl1_pow2 by (unfold MIN_ORDER in Hd; lia). exact Hfit.
    + destruct Hcase as [[-> Hall]|(Hr & Hne & Hall)].
      * left. split; [reflexivity|]. intros o Ho. apply Hall. lia.
      * right. split; [lia|]. split; [exact Hne|exact Hall].
  - intros i Hi. apply elem_of_seqZ in Hi.
    rewrite shl1_pow2 by (unfold MIN_ORDER in Hi; lia). apply Hsmall. lia.
Qed.

(** X8. With the lists initialised and a size that fits the arena, the search
    returns as [desired_order] the smallest order from [MIN_ORDER] whose
    block holds [size] bytes (order [MIN_ORDER] for every size up to one
    page, zero and negative sizes included) and as [upper_order] the
    smallest order from there whose free list has an entry, or [-1] when
    all those lists are empty. *)
Theorem find_orders_result (fa : list list_head) (size : Z) :
  (forall o, MIN_ORDER <= o <= MAX_ORDER -> exists l, at_index fa o = Ret (Some l)) ->
  size <= 2 ^ MAX_ORDER ->
  exists d u,
    find_orders fa size orders (-1) (-1) = Ret (d, u)
    /\ MIN_ORDER <= d <= MAX_ORDER
    /\ size <= 2 ^ d
    /\ (forall k, MIN_ORDER <= k < d -> 2 ^ k < size)
    /\ ((u = -1 /\ forall o, d <= o <= MAX_ORDER -> at_index fa o = Ret (Some []))
        \/ (d <= u <= MAX_ORDER
            /\ (exists p l, at_index fa u = Ret (Some (p :: l)))
            /\ forall o, d <= o < u -> at_index fa o = Ret (Some []))).
Proof.
  intros Hinit Hsize.
  destruct (desired_order_exists size Hsize) as (d & Hd & Hfit & Hsmall).
  destruct (find_orders_at fa size d Hd Hfit Hsmall) as [u [Hu Hcase]].
  { intros o Ho. apply Hinit. lia. }
  exists d, u. auto.
Qed.

End SearchFacts.

(** ** Allocation without a split (lines 152-159) *)

Section ExactFitFacts.

Variable g_memory : Z.

Lemma find_orders_exact (fa : list list_head) (size d : Z) (p : nat) (l : list nat) :
  MIN_ORDER <= d <= MAX_ORDER ->
  size <= 2 ^ d ->
  (forall k, MIN_ORDER <= k < d -> 2 ^ k < size) ->
  at_index fa d = Ret (Some (p :: l)) ->
  find_orders fa size orders (-1) (-1) = Ret (d, d).
Proof.
  intros Hd Hfit Hsmall Hhead.
  rewrite (orders_split d Hd), find_orders_below.
  - rewrite seqZ_cons by lia. rewrite find_orders_hit.
    + cbn [find_orders].
      assert (Hlt : (d <? MIN_ORDER) = false) by (apply Z.ltb_ge; lia).
      assert (Hle : (MIN_ORDER <=? d) = true) by (apply Z.leb_le; lia).
      rewrite Hlt. cbn [andb]. rewrite Hle, Hhead. reflexivity.
    + lia.
    + rewrite shl1_pow2 by (unfold MIN_ORDER in Hd; lia). exact Hfit.
  - intros i Hi. apply elem_of_seqZ in Hi.
    rewrite shl1_pow2 by (unfold MIN_ORDER in Hi; lia). apply Hsmall. lia.
Qed.

(** X9. With [allocation] null on entry no call of [buddy_alloc] is
    defined, whatever the globals and the size: either a pass of the split
    loop (lines 142-145) or lines 153-155 name a list head through
    [list_entry], unlink that head and store an order through it as if it
    were a page entry. *)
Theorem buddy_alloc_null_undefined (st : state) (size : Z) :
  buddy_alloc g_memory Null st size = Undef.
Proof.
  unfold buddy_alloc.
  destruct (find_orders _ _ _ _ _) as [[d u]|]; [|reflexivity].
  cbn [mbind outcome_bind].
  destruct (split_loop _ _ _ _ _) as [[st1 a1]|] eqn:Hloop; [|reflexivity].
  apply split_loop_returns in Hloop as (_ & -> & ->).
  cbn [mbind outcome_bind]. rewrite take_exact_null_undefined. reflexivity.
Qed.

(** X11. When the free list of the desired order is empty and a list of a
    higher order has an entry, so that a block would have to be split,
    [buddy_alloc] is undefined whatever [allocation] holds on entry: the
    first pass of the split loop takes the list head of the source order
    as the block (line 142), unlinks it (line 143) and stores the order
    through it (line 145). *)
Theorem buddy_alloc_split_undefined (allocation0 : page_ptr) (st : state)
    (size d : Z) :
  MIN_ORDER <= d <= MAX_ORDER ->
  size <= 2 ^ d ->
  (forall k, MIN_ORDER <= k < d -> 2 ^ k < size) ->
  (forall o, d <= o <= MAX_ORDER ->
     exists l, at_index (free_area st) o = Ret (Some l)) ->
  at_index (free_area st) d = Ret (Some []) ->
  (exists o p l, d < o <= MAX_ORDER
                 /\ at_index (free_area st) o = Ret (Some (p :: l))) ->
  buddy_alloc g_memory allocation0 st size = Undef.
Proof.
  intros Hd Hfit Hsmall Hinit Hempty (o & p & l & Ho & Hentry).
  destruct (find_orders_at (free_area st) size d Hd Hfit Hsmall Hinit)
    as [u [Hfind Hcase]].
  unfold buddy_alloc. rewrite Hfind. cbn [mbind outcome_bind].
  assert (Hu : d < u).
  { destruct Hcase as [[_ Hall]|(Hu & (q & lq & Hq) & _)].
    - rewrite Hall in Hentry by lia. discriminate Hentry.
    - destruct (Z.eq_dec u d) as [->|]; [|lia].
      rewrite Hempty in Hq. discriminate Hq. }
  destruct (Z.to_nat (u - d)) as [|n] eqn:Hn; [lia|].
  cbn [split_loop]. rewrite split_step_undefined. reflexivity.
Qed.

(** X14. A call of [buddy_alloc] is defined only when no pass of the split
    loop is needed and [allocation] points to a page entry on entry; it
    then returns the [location] of that entry and leaves the globals
    exactly as they were: no defined call takes a block from a free
    list. *)
Theorem buddy_alloc_returns_stale (allocation0 : page_ptr) (st st' : state)
    (size addr : Z) :
  buddy_alloc g_memory allocation0 st size = Ret (st', addr) ->
  st' = st
  /\ exists p pg,
       allocation0 = PagePtr p /\ g_pages st !! p = Some pg
       /\ addr = location pg.
Proof.
  unfold buddy_alloc. intros Halloc.
  destruct (find_orders _ _ _ _ _) as [[d u]|];
    cbn [mbind outcome_bind] in Halloc; [|congruence].
  destruct (split_loop _ _ _ _ _) as [[st1 a1]|] eqn:Hloop;
    cbn [mbind outcome_bind] in Halloc; [|congruence].
  apply split_loop_returns in Hloop as (_ & -> & ->).
  destruct allocation0 as [|p| |i].
  - rewrite take_exact_null_undefined in Halloc. discriminate Halloc.
  - cbn [take_exact mret outcome_ret mbind outcome_bind location_of] in Halloc.
    destruct (at_index (g_pages st) (Z.of_nat p)) as [pg|] eqn:Hpg;
      cbn [mbind outcome_bind mret outcome_ret] in Halloc; [|congruence].
    injection Halloc as <- <-. split; [reflexivity|].
    apply at_index_Ret in Hpg as [_ Hpg]. rewrite Nat2Z.id in Hpg. eauto.
  - discriminate Halloc.
  - discriminate Halloc.
Qed.

(** X10. When the free list of the desired order has an entry but
    [allocation] points to a page entry on entry, [buddy_alloc] takes
    nothing from the free list: it returns the [location] of that entry and
    leaves the globals as they were. *)
Theorem buddy_alloc_stale_pointer (st : state) (size d : Z) (p q : nat)
    (l : list nat) (pg : page_t) :
  MIN_ORDER <= d <= MAX_ORDER ->
  size <= 2 ^ d ->
  (forall k, MIN_ORDER <= k < d -> 2 ^ k < size) ->
  at_index (free_area st) d = Ret (Some (p :: l)) ->
  g_pages st !! q = Some pg ->
  buddy_alloc g_memory (PagePtr q) st size = Ret (st, location pg).
Proof.
  intros Hd Hfit Hsmall Hhead Hpg. unfold buddy_alloc.
  rewrite (find_orders_exact _ _ d p l Hd Hfit Hsmall Hhead).
  cbn [mbind outcome_bind]. rewrite Z.sub_diag.
  change (Z.to_nat 0) with 0%nat.
  cbn [split_loop mret outcome_ret outcome_bind take_exact mbind location_of].
  rewrite (at_index_lookup _ _ pg); [reflexivity|lia|].
  rewrite Nat2Z.id. exact Hpg.
Qed.

End ExactFitFacts.

(** ** Before and across [buddy_init] *)

Section InitFacts.

Variable g_memory : Z.

Lemma dump_loop_uninitialised (fa : list list_head) (os : list Z) (o : Z) :
  o ∈ os -> at_index fa o = Ret None -> dump_loop fa os = Undef.
Proof.
  induction os as [|o' os IH]; intros Hin Hnone; [inversion Hin|].
  cbn [dump_loop].
  destruct (Z.eq_dec o' o) as [->|Hne].
  - rewrite Hnone. reflexivity.
  - apply elem_of_cons in Hin as [->|Hin]; [contradiction|].
    rewrite (IH Hin Hnone).
    destruct (at_index fa o') as [h|]; [|reflexivity].
    cbn [mbind outcome_bind].
    destruct (list_for_each_count h); reflexivity.
Qed.

(** X19. While one of the lists of the orders [MIN_ORDER .. MAX_ORDER] was
    never initialised, as before the first [buddy_init], [buddy_dump] is
    undefined: it follows the null links of that list head. *)
Theorem buddy_dump_uninitialised (st : state) (o : Z) :
  MIN_ORDER <= o <= MAX_ORDER ->
  at_index (free_area st) o = Ret None ->
  buddy_dump st = Undef.
Proof.
  intros Ho Hnone. unfold buddy_dump.
  rewrite (dump_loop_uninitialised _ _ o); [reflexivity| |exact Hnone].
  unfold orders. apply elem_of_seqZ. unfold MIN_ORDER, MAX_ORDER in *. lia.
Qed.

(** X7. [buddy_init] discards the page entries and the lists of the orders
    [MIN_ORDER .. MAX_ORDER] it finds: two states that agree on the twelve
    list heads below [MIN_ORDER], which no function writes, are
    initialised to the same state. *)
Theorem buddy_init_resets (st1 st2 : state) :
  length (free_area st1) = Z.to_nat (MAX_ORDER + 1) ->
  length (free_area st2) = Z.to_nat (MAX_ORDER + 1) ->
  take (Z.to_nat MIN_ORDER) (free_area st1) = take (Z.to_nat MIN_ORDER) (free_area st2) ->
  buddy_init g_memory st1 = buddy_init g_memory st2.
Proof.
  destruct st1 as [fa1 pages1], st2 as [fa2 pages2]. cbn [free_area].
  change (Z.to_nat (MAX_ORDER + 1)) with 21%nat.
  change (Z.to_nat MIN_ORDER) with 12%nat.
  intros Hlen1 Hlen2 Hlow.
  do 21 (destruct fa1 as [|? fa1]; [discriminate Hlen1|]).
  destruct fa1; [|discriminate Hlen1].
  do 21 (destruct fa2 as [|? fa2]; [discriminate Hlen2|]).
  destruct fa2; [|discriminate Hlen2].
  cbn [take] in Hlow. injection Hlow as -> -> -> -> -> -> -> -> -> -> -> ->.
  reflexivity.
Qed.

End InitFacts.

(** ** The further properties at the sample run *)

Lemma sample_placed : arena_placed sample_base.
Proof. split; vm_compute; discriminate. Qed.

Lemma ADDR_TO_PAGE_inside_witness :
  0 <= 7 < n_pages
  /\ 0 <= 100 < PAGE_SIZE
  /\ ADDR_TO_PAGE sample_base (PAGE_TO_ADDR sample_base 7 + 100) = 7.
Proof.
  assert (H1 : 0 <= 7 < n_pages) by (split; vm_compute; [discriminate|reflexivity]).
  assert (H2 : 0 <= 100 < PAGE_SIZE) by (split; vm_compute; [discriminate|reflexivity]).
  split; [exact H1|]. split; [exact H2|].
  apply (ADDR_TO_PAGE_inside sample_base 7 100 H1 H2).
Defined.

Lemma PAGE_TO_ADDR_rounds_down_witness :
  arena_placed sample_base
  /\ sample_base <= sample_base + 5000 < sample_base + 2 ^ MAX_ORDER
  /\ PAGE_TO_ADDR sample_base (ADDR_TO_PAGE sample_base (sample_base + 5000))
     = sample_base + 5000 - (sample_base + 5000 - sample_base) mod PAGE_SIZE.
Proof.
  assert (H1 : sample_base <= sample_base + 5000 < sample_base + 2 ^ MAX_ORDER)
    by (split; vm_compute; [discriminate|reflexivity]).
  split; [exact sample_placed|]. split; [exact H1|].
  apply (PAGE_TO_ADDR_rounds_down sample_base sample_placed (sample_base + 5000) H1).
Defined.

Lemma ADDR_TO_PAGE_in_range_witness :
  arena_placed sample_base
  /\ 0 <= sample_base - 1 < 2 ^ ULONG_BITS
  /\ (0 <= ADDR_TO_PAGE sample_base (sample_base - 1) < n_pages
      <-> sample_base <= sample_base - 1 < sample_base + 2 ^ MAX_ORDER).
Proof.
  assert (H1 : 0 <= sample_base - 1 < 2 ^ ULONG_BITS)
    by (split; vm_compute; [discriminate|reflexivity]).
  split; [exact sample_placed|]. split; [exact H1|].
  apply (ADDR_TO_PAGE_in_range sample_base sample_placed (sample_base - 1) H1).
Defined.

Lemma BUDDY_ADDR_neighbour_witness :
  arena_placed sample_base
  /\ MIN_ORDER <= 13 < MAX_ORDER
  /\ sample_base <= sample_base + 3 * 8192 < sample_base + 2 ^ MAX_ORDER
  /\ (sample_base + 3 * 8192 - sample_base) mod 2 ^ 13 = 0
  /\ (let b := BUDDY_ADDR sample_base (sample_base + 3 * 8192) 13 in
      sample_base <= b < sample_base + 2 ^ MAX_ORDER
      /\ (b = sample_base + 3 * 8192 + 2 ^ 13 \/ b = sample_base + 3 * 8192 - 2 ^ 13)
      /\ (Z.min (sample_base + 3 * 8192) b - sample_base) mod 2 ^ (13 + 1) = 0).
Proof.
  assert (H1 : MIN_ORDER <= 13 < MAX_ORDER)
    by (split; vm_compute; [discriminate|reflexivity]).
  assert (H2 : sample_base <= sample_base + 3 * 8192 < sample_base + 2 ^ MAX_ORDER)
    by (split; vm_compute; [discriminate|reflexivity]).
  assert (H3 : (sample_base + 3 * 8192 - sample_base) mod 2 ^ 13 = 0)
    by (vm_compute; reflexivity).
  split; [exact sample_placed|]. split; [exact H1|]. split; [exact H2|].
  split; [exact H3|].
  apply (BUDDY_ADDR_neighbour sample_base sample_placed 13 _ H1 H2 H3).
Defined.

Lemma buddy_page_index_witness :
  arena_placed sample_base
  /\ 0 <= 128 < n_pages
  /\ MIN_ORDER <= 18 <= MAX_ORDER
  /\ ADDR_TO_PAGE sample_base
       (BUDDY_ADDR sample_base (PAGE_TO_ADDR sample_base 128) 18)
     = Z.lxor 128 (2 ^ (18 - MIN_ORDER)).
Proof.
  assert (H1 : 0 <= 128 < n_pages) by (split; vm_compute; [discriminate|reflexivity]).
  assert (H2 : MIN_ORDER <= 18 <= MAX_ORDER) by (split; vm_compute; discriminate).
  split; [exact sample_placed|]. split; [exact H1|]. split; [exact H2|].
  apply (buddy_page_index sample_base sample_placed 128 18 H1 H2).
Defined.

Lemma buddy_init_well_formed_witness :
  length (free_area boot) = Z.to_nat (MAX_ORDER + 1)
  /\ buddy_init sample_base boot = Ret sample_init
  /\ well_formed sample_base sample_init.
Proof.
  assert (H1 : length (free_area boot) = Z.to_nat (MAX_ORDER + 1)) by reflexivity.
  assert (H2 : buddy_init sample_base boot = Ret sample_init)
    by (vm_compute; reflexivity).
  split; [exact H1|]. split; [exact H2|].
  apply (buddy_init_well_formed sample_base boot sample_init H1 H2).
Defined.

Lemma find_orders_result_witness :
  (forall o, MIN_ORDER <= o <= MAX_ORDER ->
     exists l, at_index (free_area sample_init) o = Ret (Some l))
  /\ 5000 <= 2 ^ MAX_ORDER
  /\ exists d u,
       find_orders (free_area sample_init) 5000 orders (-1) (-1) = Ret (d, u)
       /\ MIN_ORDER <= d <= MAX_ORDER
       /\ 5000 <= 2 ^ d
       /\ (forall k, MIN_ORDER <= k < d -> 2 ^ k < 5000)
       /\ ((u = -1 /\ forall o, d <= o <= MAX_ORDER ->
                        at_index (free_area sample_init) o = Ret (Some []))
           \/ (d <= u <= MAX_ORDER
               /\ (exists p l, at_index (free_area sample_init) u = Ret (Some (p :: l)))
               /\ forall o, d <= o < u ->
                    at_index (free_area sample_init) o = Ret (Some []))).
Proof.
  assert (H1 : forall o, MIN_ORDER <= o <= MAX_ORDER ->
                 exists l, at_index (free_area sample_init) o = Ret (Some l)).
  { intros o Ho. each_order o Ho; eexists; vm_compute; reflexivity. }
  assert (H2 : 5000 <= 2 ^ MAX_ORDER) by (vm_compute; discriminate).
  split; [exact H1|]. split; [exact H2|].
  apply (find_orders_result (free_area sample_init) 5000 H1 H2).
Defined.

Lemma buddy_alloc_stale_pointer_witness :
  MIN_ORDER <= 20 <= MAX_ORDER
  /\ 2 ^ 20 <= 2 ^ 20
  /\ (forall k, MIN_ORDER <= k < 20 -> 2 ^ k < 2 ^ 20)
  /\ at_index (free_area sample_init) 20 = Ret (Some [0%nat])
  /\ g_pages sample_init !! 7%nat = Some (init_page sample_base 7)
  /\ buddy_alloc sample_base (PagePtr 7) sample_init (2 ^ 20)
     = Ret (sample_init, location (init_page sample_base 7)).
Proof.
  assert (H1 : MIN_ORDER <= 20 <= MAX_ORDER) by (split; vm_compute; discriminate).
  assert (H2 : 2 ^ 20 <= 2 ^ 20) by lia.
  assert (H3 : forall k, MIN_ORDER <= k < 20 -> 2 ^ k < 2 ^ 20).
  { intros k Hk. apply Z.pow_lt_mono_r; unfold MIN_ORDER in Hk; lia. }
  assert (H4 : at_index (free_area sample_init) 20 = Ret (Some [0%nat]))
    by (vm_compute; reflexivity).
  assert (H5 : g_pages sample_init !! 7%nat = Some (init_page sample_base 7))
    by (vm_compute; reflexivity).
  split; [exact H1|]. split; [exact H2|]. split; [exact H3|]. split; [exact H4|].
  split; [exact H5|].
  apply (buddy_alloc_stale_pointer sample_base sample_init (2 ^ 20) 20 0%nat 7%nat []
           (init_page sample_base 7) H1 H2 H3 H4 H5).
Defined.

Lemma buddy_alloc_oversize_witness :
  2 ^ MAX_ORDER < 2 ^ MAX_ORDER + 1
  /\ buddy_alloc sample_base Null sample_init (2 ^ MAX_ORDER + 1) = Undef
  /\ forall p, buddy_alloc sample_base (PagePtr p) sample_init (2 ^ MAX_ORDER + 1)
               = (addr ← location_of sample_init (PagePtr p);
                  mret (sample_init, addr)).
Proof.
  assert (H1 : 2 ^ MAX_ORDER < 2 ^ MAX_ORDER + 1) by lia.
  split; [exact H1|].
  apply (buddy_alloc_oversize sample_base sample_init (2 ^ MAX_ORDER + 1) H1).
Defined.

Lemma buddy_dump_uninitialised_witness :
  MIN_ORDER <= 12 <= MAX_ORDER
  /\ at_index (free_area boot) 12 = Ret None
  /\ buddy_dump boot = Undef.
Proof.
  assert (H1 : MIN_ORDER <= 12 <= MAX_ORDER) by (split; vm_compute; discriminate).
  assert (H2 : at_index (free_area boot) 12 = Ret None) by (vm_compute; reflexivity).
  split; [exact H1|]. split; [exact H2|].
  apply (buddy_dump_uninitialised boot 12 H1 H2).
Defined.

Lemma buddy_init_resets_witness :
  length (free_area sample_init) = Z.to_nat (MAX_ORDER + 1)
  /\ length (free_area boot) = Z.to_nat (MAX_ORDER + 1)
  /\ take (Z.to_nat MIN_ORDER) (free_area sample_init)
     = take (Z.to_nat MIN_ORDER) (free_area boot)
  /\ buddy_init sample_base sample_init = buddy_init sample_base boot.
Proof.
  assert (H1 : length (free_area sample_init) = Z.to_nat (MAX_ORDER + 1))
    by (vm_compute; reflexivity).
  assert (H2 : length (free_area boot) = Z.to_nat (MAX_ORDER + 1)) by reflexivity.
  assert (H3 : take (Z.to_nat MIN_ORDER) (free_area sample_init)
               = take (Z.to_nat MIN_ORDER) (free_area boot))
    by (vm_compute; reflexivity).
  split; [exact H1|]. split; [exact H2|]. split; [exact H3|].
  apply (buddy_init_resets sample_base sample_init boot H1 H2 H3).
Defined.

Lemma buddy_alloc_exhausted_witness :
  MIN_ORDER <= 13 <= MAX_ORDER
  /\ 8192 <= 2 ^ 13
  /\ (forall k, MIN_ORDER <= k < 13 -> 2 ^ k < 8192)
  /\ (forall o, 13 <= o <= MAX_ORDER ->
        at_index (free_area sample_empty) o = Ret (Some []))
  /\ buddy_alloc sample_base Null sample_empty 8192 = Undef
  /\ forall p, buddy_alloc sample_base (PagePtr p) sample_empty 8192
               = (addr ← location_of sample_empty (PagePtr p);
                  mret (sample_empty, addr)).
Proof.
  assert (H1 : MIN_ORDER <= 13 <= MAX_ORDER) by (split; vm_compute; discriminate).
  assert (H2 : 8192 <= 2 ^ 13) by (vm_compute; discriminate).
  assert (H3 : forall k, MIN_ORDER <= k < 13 -> 2 ^ k < 8192).
  { intros k Hk. unfold MIN_ORDER in Hk. assert (k = 12) as -> by lia. reflexivity. }
  assert (H4 : forall o, 13 <= o <= MAX_ORDER ->
                 at_index (free_area sample_empty) o = Ret (Some [])).
  { intros o Ho.
    assert (Ho' : MIN_ORDER <= o <= MAX_ORDER) by (unfold MIN_ORDER; lia).
    each_order o Ho'; vm_compute; reflexivity. }
  split; [exact H1|]. split; [exact H2|]. split; [exact H3|]. split; [exact H4|].
  apply (buddy_alloc_exhausted sample_base sample_empty 8192 13 H1 H2 H3 H4).
Defined.

Lemma buddy_alloc_split_undefined_witness :
  MIN_ORDER <= 12 <= MAX_ORDER
  /\ 4096 <= 2 ^ 12
  /\ (forall k, MIN_ORDER <= k < 12 -> 2 ^ k < 4096)
  /\ (forall o, 12 <= o <= MAX_ORDER ->
        exists l, at_index (free_area sample_init) o = Ret (Some l))
  /\ at_index (free_area sample_init) 12 = Ret (Some [])
  /\ (exists o p l, 12 < o <= MAX_ORDER
                    /\ at_index (free_area sample_init) o = Ret (Some (p :: l)))
  /\ buddy_alloc sample_base (PagePtr 7) sample_init 4096 = Undef.
Proof.
  assert (H1 : MIN_ORDER <= 12 <= MAX_ORDER) by (split; vm_compute; discriminate).
  assert (H2 : 4096 <= 2 ^ 12) by (vm_compute; discriminate).
  assert (H3 : forall k, MIN_ORDER <= k < 12 -> 2 ^ k < 4096).
  { intros k Hk. unfold MIN_ORDER in Hk. lia. }
  assert (H4 : forall o, 12 <= o <= MAX_ORDER ->
                 exists l, at_index (free_area sample_init) o = Ret (Some l)).
  { intros o Ho.
    assert (Ho' : MIN_ORDER <= o <= MAX_ORDER) by (unfold MIN_ORDER; lia).
    each_order o Ho'; eexists; vm_compute; reflexivity. }
  assert (H5 : at_index (free_area sample_init) 12 = Ret (Some []))
    by (vm_compute; reflexivity).
  assert (H6 : exists o p l, 12 < o <= MAX_ORDER
                 /\ at_index (free_area sample_init) o = Ret (Some (p :: l))).
  { exists 20, 0%nat, []. split; [split; vm_compute; [reflexivity|discriminate]|].
    vm_compute. reflexivity. }
  split; [exact H1|]. split; [exact H2|]. split; [exact H3|]. split; [exact H4|].
  split; [exact H5|]. split; [exact H6|].
  apply (buddy_alloc_split_undefined sample_base (PagePtr 7) sample_init 4096 12
           H1 H2 H3 H4 H5 H6).
Defined.

Lemma buddy_alloc_returns_stale_witness :
  buddy_alloc sample_base (PagePtr 7) sample_init (2 ^ 20)
  = Ret (sample_init, PAGE_TO_ADDR sample_base 7)
  /\ sample_init = sample_init
  /\ exists p pg,
       PagePtr 7 = PagePtr p /\ g_pages sample_init !! p = Some pg
       /\ PAGE_TO_ADDR sample_base 7 = location pg.
Proof.
  assert (H1 : buddy_alloc sample_base (PagePtr 7) sample_init (2 ^ 20)
               = Ret (sample_init, PAGE_TO_ADDR sample_base 7))
    by (vm_compute; reflexivity).
  split; [exact H1|].
  apply (buddy_alloc_returns_stale sample_base (PagePtr 7) sample_init sample_init
           (2 ^ 20) (PAGE_TO_ADDR sample_base 7) H1).
Defined.
